(** * transcribee: the Automerge websocket editor hook

    A shallow embedding of
    [frontend/src/editor/automerge_websocket_editor.ts]
    ([useAutomergeWebsocketEditor]) and the properties of its inbound
    frame handler [onMessage], its outbound emitter [editor.onDocChange]
    and the effect cleanup.

    The hook talks to three collaborators that are not part of the
    repository: the Automerge CRDT engine, the editor surface
    ([slate-automerge-doc]) and the reconnecting websocket.  The engine is
    an interface ([Automerge], a class); the calls made on the websocket,
    the console and the caller's callback are recorded, in order, in a
    trace of [Event]s. *)

From Stdlib Require Import String List Bool NArith Arith Lia.
From Stdlib Require Import Init.Byte.
Import ListNotations.

Set Implicit Arguments.

(** ** Data *)

(** A [Uint8Array]. *)
Definition bytes := list byte.

(** [msg_data[0]]: the element as a number, [None] for JavaScript's
    [undefined] (index out of range). *)
Definition index0 (a : bytes) : option N :=
  match a with
  | [] => None
  | b :: _ => Some (Byte.to_N b)
  end.

(** [a.slice(1)]: a copy without the first element; empty for an empty
    array. *)
Definition slice1 (a : bytes) : bytes := skipn 1 a.

(** [enum MessageSyncType] (lines 9-13). *)
Inductive MessageSyncType := Change | ChangeBacklogComplete | FullDoc.

Definition MessageSyncType_value (t : MessageSyncType) : N :=
  match t with
  | Change => 1
  | ChangeBacklogComplete => 2
  | FullDoc => 3
  end%N.

(** [msg_type === MessageSyncType.X] where [msg_type] is a number or
    [undefined]. *)
Definition strict_eq (msg_type : option N) (t : MessageSyncType) : bool :=
  match msg_type with
  | Some n => N.eqb n (MessageSyncType_value t)
  | None => false
  end.

(** Automerge's [ActorId] is a (hexadecimal) string. *)
Definition ActorId := string.

(** What [Automerge.decodeChange] returns; the handler reads [actor] only. *)
Record DecodedChange := { actor : ActorId }.

(** The CRDT engine, as far as the hook uses it.  A call that can throw on
    corrupt bytes returns [option], [None] standing for the exception.
    [getLastLocalChange] returns [undefined] ([None]) when the document has
    no local change. *)
Class Automerge (Doc : Type) := {
  init : Doc;
  decodeChange : bytes -> option DecodedChange;
  getActorId : Doc -> ActorId;
  applyChanges : Doc -> list bytes -> option Doc;
  load : bytes -> option Doc;
  getLastLocalChange : Doc -> option bytes
}.

(** A [ReconnectingWebSocket] object, named by a number. *)
Definition WebSocket := nat.

(** ** The handlers *)

Section Hook.

Context {Doc : Type} {engine : Automerge Doc}.

(** Whether the editor surface calls [editor.onDocChange] from [setDoc].
    The library is not part of the repository; every result below holds
    for both answers. *)
Variable setDoc_notifies : bool.

(** What the hook does to the outside, in the order it does it. *)
Inductive Event :=
| ConsoleLog (s : string)
| InitialSyncComplete
| DocChangeNotified (d : Doc)
| WsSend (ws : WebSocket) (data : bytes)
| WsClose (ws : WebSocket).

(** The mutable cells the closures share: [editor.doc] and
    [wsRef.current].  The hook holds no other state. *)
Record State := {
  doc : Doc;
  wsRef_current : option WebSocket
}.

(** A run of a handler: its return value ([None] when an exception
    escaped), the state it leaves and what it did. *)
Record Result (A : Type) := {
  outcome : option A;
  final : State;
  effects : list Event
}.

Definition M (A : Type) := State -> Result A.

Definition ret {A} (a : A) : M A :=
  fun st => {| outcome := Some a; final := st; effects := [] |}.

Definition bind {A B} (m : M A) (k : A -> M B) : M B :=
  fun st =>
    let r := m st in
    match outcome r with
    | None => {| outcome := None; final := final r; effects := effects r |}
    | Some a =>
        let r' := k a (final r) in
        {| outcome := outcome r';
           final := final r';
           effects := effects r ++ effects r' |}
    end.

(** A call into the engine that throws when it answers [None]. *)
Definition or_throw {A} (o : option A) : M A :=
  fun st => {| outcome := o; final := st; effects := [] |}.

Definition emit (e : Event) : M unit :=
  fun st => {| outcome := Some tt; final := st; effects := [e] |}.

Definition get_doc : M Doc :=
  fun st => {| outcome := Some (doc st); final := st; effects := [] |}.

Definition put_doc (d : Doc) : M unit :=
  fun st =>
    {| outcome := Some tt;
       final := {| doc := d; wsRef_current := wsRef_current st |};
       effects := [] |}.

Definition get_wsRef : M (option WebSocket) :=
  fun st => {| outcome := Some (wsRef_current st); final := st; effects := [] |}.

Definition put_wsRef (r : option WebSocket) : M unit :=
  fun st =>
    {| outcome := Some tt;
       final := {| doc := doc st; wsRef_current := r |};
       effects := [] |}.

Notation "x <- m ;; k" := (bind m (fun x => k))
  (at level 61, m at next level, right associativity).
Notation "m ;; k" := (bind m (fun _ => k))
  (at level 61, right associativity).

(** [editor.onDocChange] (lines 62-67).  A [Uint8Array] and a websocket
    object are both truthy, so the guard is "both are present". *)
Definition onDocChange (newDoc : Doc) : M unit :=
  let lastChange := getLastLocalChange newDoc in
  current <- get_wsRef ;;
  match lastChange, current with
  | Some c, Some ws => emit (WsSend ws c)
  | _, _ => ret tt
  end.

(** Modelled from the spec: [editor.setDoc] of the editor surface
    ([slate-automerge-doc], not under src/): it "accepts a replacement
    Document" and may invoke the registered callback with the new
    Document. *)
Definition setDoc (d : Doc) : M unit :=
  put_doc d ;;
  if setDoc_notifies
  then emit (DocChangeNotified d) ;; onDocChange d
  else ret tt.

(** Lines 33-34: the tag is byte 0, the payload is the rest. *)
Definition decode (msg_data : bytes) : option N * bytes :=
  (index0 msg_data, slice1 msg_data).

(** [onMessage] (lines 31-49), from the point where the bytes of the
    message are available (after the [await]). *)
Definition onMessage (msg_data : bytes) : M unit :=
  let (msg_type, msg) := decode msg_data in
  if strict_eq msg_type Change then
    c <- or_throw (decodeChange msg) ;;
    d <- get_doc ;;
    if String.eqb (actor c) (getActorId d) then ret tt
    else
      newDoc <- or_throw (applyChanges d [msg]) ;;
      setDoc newDoc
  else if strict_eq msg_type ChangeBacklogComplete then
    emit (ConsoleLog "All changes synced") ;;
    emit InitialSyncComplete
  else if strict_eq msg_type FullDoc then
    emit (ConsoleLog "Received new document") ;;
    d <- or_throw (load msg) ;;
    setDoc d
  else ret tt.

(** The effect's cleanup (lines 56-59), one action per statement; [ws] is
    the websocket the effect created. *)
Definition cleanup_steps (ws : WebSocket) : list (M unit) :=
  [ put_wsRef None; emit (WsClose ws) ].

Fixpoint run_steps (steps : list (M unit)) : M unit :=
  match steps with
  | [] => ret tt
  | s :: rest => s ;; run_steps rest
  end.

Definition cleanup (ws : WebSocket) : M unit := run_steps (cleanup_steps ws).

(** The effect body's last statement (line 54). *)
Definition mount (ws : WebSocket) : M unit := put_wsRef (Some ws).

(** ** Sessions

    JavaScript runs the callbacks one at a time.  A session is the list of
    callbacks the event loop runs, in order. *)
Inductive Input :=
| Frame (msg_data : bytes)
| LocalEdit (newDoc : Doc)
| Teardown (ws : WebSocket).

(** Modelled from the spec: a local edit in the editor surface (not under
    src/): the surface "issues a change notification whenever it mutates"
    the Document, so it stores the new Document and calls
    [editor.onDocChange] with it. *)
Definition local_edit (newDoc : Doc) : M unit :=
  put_doc newDoc ;; emit (DocChangeNotified newDoc) ;; onDocChange newDoc.

Definition handle (i : Input) : M unit :=
  match i with
  | Frame msg_data => onMessage msg_data
  | LocalEdit newDoc => local_edit newDoc
  | Teardown ws => cleanup ws
  end.

(** An exception that escapes a callback ends that callback only (for
    [onMessage], an [async] function, it rejects the promise nobody
    awaits); the loop goes on with the state the callback left. *)
Fixpoint run_session (inputs : list Input) (st : State) : State * list Event :=
  match inputs with
  | [] => (st, [])
  | i :: rest =>
      let r := handle i st in
      let (st', tr) := run_session rest (final r) in
      (st', effects r ++ tr)
  end.

(** The state once the effect has run: [Automerge.init()] in the editor
    (line 24), [useRef(null)] (line 27), then the new websocket stored in
    [wsRef] (line 54). *)
Definition started (ws : WebSocket) : State :=
  final (mount ws {| doc := init; wsRef_current := None |}).

(** ** Observations on traces *)

(** A handler that returned normally, and one that an exception left. *)
Definition returned (st : State) (tr : list Event) : Result unit :=
  {| outcome := Some tt; final := st; effects := tr |}.

Definition threw (st : State) (tr : list Event) : Result unit :=
  {| outcome := None; final := st; effects := tr |}.

(** The calls of [send] that a notification about [newDoc] makes when
    [wsRef.current] is [current]. *)
Definition outbound (newDoc : Doc) (current : option WebSocket) : list Event :=
  match getLastLocalChange newDoc, current with
  | Some c, Some ws => [WsSend ws c]
  | _, _ => []
  end.

(** What [setDoc] does besides storing the document. *)
Definition setDoc_trace (d : Doc) (current : option WebSocket) : list Event :=
  if setDoc_notifies then DocChangeNotified d :: outbound d current else [].

Definition is_InitialSyncComplete (e : Event) : bool :=
  match e with InitialSyncComplete => true | _ => false end.

Definition is_WsSend (e : Event) : bool :=
  match e with WsSend _ _ => true | _ => false end.

(** How many times [onInitialSyncComplete] was called. *)
Definition sync_complete_calls (tr : list Event) : nat :=
  length (filter is_InitialSyncComplete tr).

(** What was handed to [send], in order. *)
Definition sent (tr : list Event) : list Event := filter is_WsSend tr.

(** The frames of a session that carry tag 2. *)
Definition is_backlog_complete (i : Input) : bool :=
  match i with
  | Frame msg_data => strict_eq (index0 msg_data) ChangeBacklogComplete
  | _ => false
  end.

(** The websockets [send] was called on, in order. *)
Definition send_targets (tr : list Event) : list WebSocket :=
  flat_map (fun e => match e with WsSend ws _ => [ws] | _ => [] end) tr.

(** The websockets [close] was called on, in order. *)
Definition closed_sockets (tr : list Event) : list WebSocket :=
  flat_map (fun e => match e with WsClose ws => [ws] | _ => [] end) tr.

(** The websockets of the cleanups of a session, in order. *)
Definition teardowns (inputs : list Input) : list WebSocket :=
  flat_map (fun i => match i with Teardown ws => [ws] | _ => [] end) inputs.

(** [applyChanges] with one change at a time, in the order of the list;
    [None] as soon as the engine rejects one. *)
Fixpoint apply_in_order (d : Doc) (payloads : list bytes) : option Doc :=
  match payloads with
  | [] => Some d
  | m :: rest =>
      match applyChanges d [m] with
      | Some d' => apply_in_order d' rest
      | None => None
      end
  end.

(** The frames that take neither the [Change] nor the [FullDoc] branch of
    [onMessage]. *)
Definition is_inert (i : Input) : bool :=
  match i with
  | Frame msg_data =>
      negb (strict_eq (index0 msg_data) Change)
      && negb (strict_eq (index0 msg_data) FullDoc)
  | _ => false
  end.

End Hook.

Arguments Event : clear implicits.
Arguments State : clear implicits.
Arguments Input : clear implicits.
Arguments Result : clear implicits.
Arguments M : clear implicits.

(** ** The codec of the spec *)

Definition tag_byte (t : MessageSyncType) : byte :=
  match t with
  | Change => x01
  | ChangeBacklogComplete => x02
  | FullDoc => x03
  end.

(** Modelled from the spec: [encode(tag, payload)], which the source does
    not have (it reads tags, on the inbound path, and never writes one): "a frame whose first byte is
    the numeric tag and remaining bytes are the payload, unmodified". *)
Definition encode (t : MessageSyncType) (payload : bytes) : bytes :=
  tag_byte t :: payload.

(** ** A small engine to run the handlers on

    Changes and snapshots are byte strings whose first byte names the
    author; an empty one is corrupt. *)
Module Toy.

Record ToyDoc := {
  toy_actor : ActorId;
  toy_applied : list bytes;
  toy_local : option bytes
}.

Definition actor_of (b : byte) : ActorId :=
  String (Ascii.ascii_of_byte b) EmptyString.

Definition toy_decodeChange (c : bytes) : option DecodedChange :=
  match c with
  | [] => None
  | b :: _ => Some {| actor := actor_of b |}
  end.

Definition toy_applyChanges (d : ToyDoc) (cs : list bytes) : option ToyDoc :=
  if existsb (fun c => match c with [] => true | _ => false end) cs
  then None
  else Some {| toy_actor := toy_actor d;
               toy_applied := toy_applied d ++ cs;
               toy_local := toy_local d |}.

Definition toy_load (snapshot : bytes) : option ToyDoc :=
  match snapshot with
  | [] => None
  | b :: rest =>
      Some {| toy_actor := actor_of b; toy_applied := [rest]; toy_local := None |}
  end.

#[export] Instance toy_engine : Automerge ToyDoc := {
  init := {| toy_actor := "A"%string; toy_applied := []; toy_local := None |};
  decodeChange := toy_decodeChange;
  getActorId := toy_actor;
  applyChanges := toy_applyChanges;
  load := toy_load;
  getLastLocalChange := toy_local
}.

(** The document of replica "A" after it typed the change [41 07]. *)
Definition edited : ToyDoc :=
  {| toy_actor := "A"%string; toy_applied := []; toy_local := Some [x41; x07] |}.

(** A session of replica "A" holding that document, websocket 0 open. *)
Definition live : State ToyDoc :=
  {| doc := edited; wsRef_current := Some 0 |}.

(** The same after the websocket reference was cleared. *)
Definition detached : State ToyDoc :=
  {| doc := edited; wsRef_current := None |}.

End Toy.

(** ** Properties of the handlers *)

Unset Implicit Arguments.

Section HookProperties.

Context {Doc : Type} {engine : Automerge Doc}.
Variable notifies : bool.

(** *** How [bind] runs the primitive actions *)

Lemma Result_eta {A} (r : Result Doc A) :
  {| outcome := outcome r; final := final r; effects := effects r |} = r.
Proof. destruct r; reflexivity. Qed.

Lemma bind_or_throw {A B} (o : option A) (k : A -> M Doc B) (st : State Doc) :
  bind (or_throw o) k st =
  match o with
  | Some a => k a st
  | None => {| outcome := None; final := st; effects := [] |}
  end.
Proof. unfold bind, or_throw; cbn. destruct o; [apply Result_eta|reflexivity]. Qed.

Lemma bind_get_doc {B} (k : Doc -> M Doc B) (st : State Doc) :
  bind get_doc k st = k (doc st) st.
Proof. unfold bind, get_doc; cbn. apply Result_eta. Qed.

Lemma bind_get_wsRef {B} (k : option WebSocket -> M Doc B) (st : State Doc) :
  bind get_wsRef k st = k (wsRef_current st) st.
Proof. unfold bind, get_wsRef; cbn. apply Result_eta. Qed.

Lemma bind_put_doc {B} (d : Doc) (k : unit -> M Doc B) (st : State Doc) :
  bind (put_doc d) k st = k tt {| doc := d; wsRef_current := wsRef_current st |}.
Proof. unfold bind, put_doc; cbn. apply Result_eta. Qed.

Lemma bind_emit {B} (e : Event Doc) (k : unit -> M Doc B) (st : State Doc) :
  bind (emit e) k st =
  {| outcome := outcome (k tt st);
     final := final (k tt st);
     effects := e :: effects (k tt st) |}.
Proof. reflexivity. Qed.

(** *** The emitter *)

Lemma onDocChange_run (newDoc : Doc) (st : State Doc) :
  onDocChange newDoc st = returned st (outbound newDoc (wsRef_current st)).
Proof.
  unfold onDocChange, outbound. rewrite bind_get_wsRef.
  destruct (getLastLocalChange newDoc), (wsRef_current st); reflexivity.
Qed.

(** *** The editor surface *)

Lemma setDoc_run (d : Doc) (st : State Doc) :
  setDoc notifies d st =
  returned {| doc := d; wsRef_current := wsRef_current st |}
           (setDoc_trace notifies d (wsRef_current st)).
Proof.
  unfold setDoc, setDoc_trace. rewrite bind_put_doc.
  destruct notifies; [|reflexivity].
  rewrite bind_emit, onDocChange_run. reflexivity.
Qed.

Lemma outbound_calls_nothing (d : Doc) (current : option WebSocket) :
  sync_complete_calls (outbound d current) = 0.
Proof. unfold outbound. destruct (getLastLocalChange d), current; reflexivity. Qed.

Lemma setDoc_trace_calls_nothing (d : Doc) (current : option WebSocket) :
  sync_complete_calls (setDoc_trace notifies d current) = 0.
Proof.
  unfold setDoc_trace. destruct notifies; [|reflexivity].
  apply outbound_calls_nothing.
Qed.

Lemma setDoc_trace_silent (d : Doc) : sent (setDoc_trace notifies d None) = [].
Proof.
  unfold setDoc_trace, outbound. destruct notifies; [|reflexivity].
  destruct (getLastLocalChange d); reflexivity.
Qed.

(** *** Branch selection *)

Lemma strict_eq_tag (msg_type : option N) (t : MessageSyncType) :
  strict_eq msg_type t = true <-> msg_type = Some (MessageSyncType_value t).
Proof.
  unfold strict_eq. destruct msg_type as [n|].
  - rewrite N.eqb_eq. split; congruence.
  - split; discriminate.
Qed.

Lemma strict_eq_excl (msg_type : option N) (t t' : MessageSyncType) :
  strict_eq msg_type t = true -> t <> t' -> strict_eq msg_type t' = false.
Proof.
  unfold strict_eq. destruct msg_type as [n|]; [|discriminate].
  rewrite N.eqb_eq. intros -> Hne. apply N.eqb_neq.
  destruct t, t'; cbn; congruence.
Qed.

(** The four ways through the handler's [if] chain. *)
Lemma onMessage_Change (msg_data : bytes) (st : State Doc) :
  strict_eq (index0 msg_data) Change = true ->
  onMessage notifies msg_data st =
  match decodeChange (slice1 msg_data) with
  | None => threw st []
  | Some c =>
      if String.eqb (actor c) (getActorId (doc st)) then returned st []
      else match applyChanges (doc st) [slice1 msg_data] with
           | None => threw st []
           | Some newDoc => setDoc notifies newDoc st
           end
  end.
Proof.
  intros H. unfold onMessage, decode. rewrite H, bind_or_throw.
  destruct (decodeChange (slice1 msg_data)) as [c|]; [|reflexivity].
  rewrite bind_get_doc.
  destruct (String.eqb (actor c) (getActorId (doc st))); [reflexivity|].
  rewrite bind_or_throw. reflexivity.
Qed.

Lemma onMessage_ChangeBacklogComplete (msg_data : bytes) (st : State Doc) :
  strict_eq (index0 msg_data) ChangeBacklogComplete = true ->
  onMessage notifies msg_data st =
  returned st [ConsoleLog "All changes synced"; InitialSyncComplete].
Proof.
  intros H. unfold onMessage, decode.
  rewrite (strict_eq_excl _ _ Change H) by discriminate. rewrite H.
  reflexivity.
Qed.

Lemma onMessage_FullDoc (msg_data : bytes) (st : State Doc) :
  strict_eq (index0 msg_data) FullDoc = true ->
  onMessage notifies msg_data st =
  match load (slice1 msg_data) with
  | None => threw st [ConsoleLog "Received new document"]
  | Some d =>
      returned {| doc := d; wsRef_current := wsRef_current st |}
               (ConsoleLog "Received new document"
                  :: setDoc_trace notifies d (wsRef_current st))
  end.
Proof.
  intros H. unfold onMessage, decode.
  rewrite (strict_eq_excl _ _ Change H) by discriminate.
  rewrite (strict_eq_excl _ _ ChangeBacklogComplete H) by discriminate.
  rewrite H, bind_emit, bind_or_throw.
  destruct (load (slice1 msg_data)) as [d|]; [|reflexivity].
  rewrite setDoc_run. reflexivity.
Qed.

Lemma onMessage_other (msg_data : bytes) (st : State Doc) :
  strict_eq (index0 msg_data) Change = false ->
  strict_eq (index0 msg_data) ChangeBacklogComplete = false ->
  strict_eq (index0 msg_data) FullDoc = false ->
  onMessage notifies msg_data st = returned st [].
Proof.
  intros H1 H2 H3. unfold onMessage, decode. rewrite H1, H2, H3. reflexivity.
Qed.

Ltac split_on_tag msg_data st :=
  let E1 := fresh "Hchange" in
  let E2 := fresh "Hbacklog" in
  let E3 := fresh "Hfull" in
  destruct (strict_eq (index0 msg_data) Change) eqn:E1;
  [ rewrite (onMessage_Change msg_data st E1);
    try rewrite (strict_eq_excl _ _ ChangeBacklogComplete E1) by discriminate;
    destruct (decodeChange (slice1 msg_data)) as [?c|];
    [ destruct (String.eqb (actor c) (getActorId (doc st)));
      [ | destruct (applyChanges (doc st) [slice1 msg_data]) as [?d|];
          [ rewrite setDoc_run | ] ]
    | ]
  | destruct (strict_eq (index0 msg_data) ChangeBacklogComplete) eqn:E2;
    [ rewrite (onMessage_ChangeBacklogComplete msg_data st E2)
    | destruct (strict_eq (index0 msg_data) FullDoc) eqn:E3;
      [ rewrite (onMessage_FullDoc msg_data st E3);
        destruct (load (slice1 msg_data)) as [?d|]
      | rewrite (onMessage_other msg_data st E1 E2 E3) ] ] ].

Lemma onMessage_keeps_handle (msg_data : bytes) (st : State Doc) :
  wsRef_current (final (onMessage notifies msg_data st)) = wsRef_current st.
Proof. split_on_tag msg_data st; reflexivity. Qed.

Lemma onMessage_calls (msg_data : bytes) (st : State Doc) :
  sync_complete_calls (effects (onMessage notifies msg_data st)) =
  if strict_eq (index0 msg_data) ChangeBacklogComplete then 1 else 0.
Proof.
  split_on_tag msg_data st; try reflexivity; cbn;
    apply setDoc_trace_calls_nothing.
Qed.

Lemma onMessage_silent_without_handle (msg_data : bytes) (st : State Doc) :
  wsRef_current st = None -> sent (effects (onMessage notifies msg_data st)) = [].
Proof.
  intros H. split_on_tag msg_data st; try reflexivity; cbn;
    rewrite H; apply setDoc_trace_silent.
Qed.

(** *** Whole sessions *)

Lemma local_edit_run (newDoc : Doc) (st : State Doc) :
  local_edit newDoc st =
  returned {| doc := newDoc; wsRef_current := wsRef_current st |}
           (DocChangeNotified newDoc :: outbound newDoc (wsRef_current st)).
Proof.
  unfold local_edit. rewrite bind_put_doc, bind_emit, onDocChange_run.
  reflexivity.
Qed.

Lemma handle_calls (i : Input Doc) (st : State Doc) :
  sync_complete_calls (effects (handle notifies i st)) =
  if is_backlog_complete i then 1 else 0.
Proof.
  destruct i as [msg_data|newDoc|ws]; unfold handle, is_backlog_complete.
  - apply onMessage_calls.
  - rewrite local_edit_run. apply outbound_calls_nothing.
  - reflexivity.
Qed.

Lemma handle_without_handle (i : Input Doc) (st : State Doc) :
  wsRef_current st = None ->
  wsRef_current (final (handle notifies i st)) = None /\
  sent (effects (handle notifies i st)) = [].
Proof.
  intros H. destruct i as [msg_data|newDoc|ws]; unfold handle.
  - rewrite onMessage_keeps_handle. split; [exact H|].
    now apply onMessage_silent_without_handle.
  - rewrite local_edit_run, H. unfold outbound.
    destruct (getLastLocalChange newDoc); cbn; auto.
  - auto.
Qed.

Lemma session_without_handle (inputs : list (Input Doc)) :
  forall st : State Doc,
    wsRef_current st = None ->
    sent (snd (run_session notifies inputs st)) = [].
Proof.
  induction inputs as [|i rest IH]; intros st H; [reflexivity|].
  cbn. destruct (handle_without_handle i st H) as [Hh Hs].
  specialize (IH _ Hh).
  destruct (run_session notifies rest (final (handle notifies i st))) as [st' tr].
  cbn in *. unfold sent in *. now rewrite filter_app, Hs, IH.
Qed.

Lemma sync_complete_calls_app (tr1 tr2 : list (Event Doc)) :
  sync_complete_calls (tr1 ++ tr2) =
  sync_complete_calls tr1 + sync_complete_calls tr2.
Proof. unfold sync_complete_calls. now rewrite filter_app, length_app. Qed.

Lemma tag_is (msg_data : bytes) (t : MessageSyncType) :
  index0 msg_data = Some (MessageSyncType_value t) ->
  strict_eq (index0 msg_data) t = true.
Proof. apply strict_eq_tag. Qed.

Lemma tag_is_not (msg_data : bytes) (n : N) (t : MessageSyncType) :
  index0 msg_data = Some n -> n <> MessageSyncType_value t ->
  strict_eq (index0 msg_data) t = false.
Proof. intros -> H. now apply N.eqb_neq. Qed.

Lemma onDocChange_without_handle (newDoc : Doc) (st : State Doc) :
  wsRef_current st = None -> onDocChange newDoc st = returned st [].
Proof.
  intros H. rewrite onDocChange_run, H. unfold outbound.
  destruct (getLastLocalChange newDoc); reflexivity.
Qed.

Lemma echo_drop_run (msg_data : bytes) (st : State Doc) (c : DecodedChange) :
  index0 msg_data = Some 1%N ->
  decodeChange (slice1 msg_data) = Some c ->
  actor c = getActorId (doc st) ->
  onMessage notifies msg_data st = returned st [].
Proof.
  intros Htag Hdec Hown.
  rewrite (onMessage_Change msg_data st (tag_is msg_data Change Htag)), Hdec.
  rewrite Hown, String.eqb_refl. reflexivity.
Qed.

(** ** The claims *)

(** C1. A frame with tag 1 whose decoded author is the actor of the
    document the editor holds is dropped: the handler returns with the
    state (document and websocket reference) as it was and with an empty
    trace, so no notification, no send, no callback. *)
Theorem echo_change_dropped (msg_data : bytes) (st : State Doc) (c : DecodedChange) :
  index0 msg_data = Some 1%N ->
  decodeChange (slice1 msg_data) = Some c ->
  actor c = getActorId (doc st) ->
  onMessage notifies msg_data st = returned st [].
Proof.
  intros Htag Hdec Hown.
  rewrite (onMessage_Change msg_data st (tag_is msg_data Change Htag)), Hdec.
  rewrite Hown, String.eqb_refl. reflexivity.
Qed.

(** C2, as amended. [onInitialSyncComplete] is called once for every
    processed frame with tag 2: in any session the number of calls is the
    number of such frames (none, one or several).  Nothing else calls it:
    a frame handler calls it once when the tag is 2 and not at all
    otherwise, and the local-edit notification never calls it. *)
Theorem initial_sync_once_per_backlog_frame :
  (forall (inputs : list (Input Doc)) (st : State Doc),
      sync_complete_calls (snd (run_session notifies inputs st)) =
      length (filter is_backlog_complete inputs)) /\
  (forall (msg_data : bytes) (st : State Doc),
      sync_complete_calls (effects (onMessage notifies msg_data st)) =
      if strict_eq (index0 msg_data) ChangeBacklogComplete then 1 else 0) /\
  (forall (newDoc : Doc) (st : State Doc),
      sync_complete_calls (effects (onDocChange newDoc st)) = 0 /\
      sync_complete_calls (effects (local_edit newDoc st)) = 0).
Proof.
  split; [|split].
  - induction inputs as [|i rest IH]; intros st; [reflexivity|].
    cbn [run_session filter].
    specialize (IH (final (handle notifies i st))).
    destruct (run_session notifies rest (final (handle notifies i st))) as [st' tr].
    cbn [snd] in *.
    rewrite sync_complete_calls_app, handle_calls, IH.
    destruct (is_backlog_complete i); reflexivity.
  - apply onMessage_calls.
  - intros newDoc st. rewrite onDocChange_run, local_edit_run.
    split; apply outbound_calls_nothing.
Qed.

(** C3, as amended. On a notification about a document that has a last
    local change, with a websocket in [wsRef], the handler calls [send]
    once, with exactly the bytes of that change: no tag byte is put in
    front of them.  Nothing else happens. *)
Theorem local_change_sent_unframed
        (newDoc : Doc) (st : State Doc) (c : bytes) (ws : WebSocket) :
  getLastLocalChange newDoc = Some c ->
  wsRef_current st = Some ws ->
  onDocChange newDoc st = returned st [WsSend ws c].
Proof.
  intros Hc Hws. rewrite onDocChange_run. unfold outbound.
  now rewrite Hc, Hws.
Qed.

(** C4. A frame with tag 3 whose payload loads replaces the document by
    the loaded one, whatever the editor held before (in particular after
    any earlier run of frames and local edits); the handler returns, and
    the websocket reference is untouched. *)
Theorem full_doc_replaces_document (msg_data : bytes) (st : State Doc) (d : Doc) :
  index0 msg_data = Some 3%N ->
  load (slice1 msg_data) = Some d ->
  outcome (onMessage notifies msg_data st) = Some tt /\
  final (onMessage notifies msg_data st) =
    {| doc := d; wsRef_current := wsRef_current st |} /\
  forall earlier : list (Input Doc),
    doc (final (onMessage notifies msg_data
                  (fst (run_session notifies earlier st)))) = d.
Proof.
  intros Htag Hload.
  pose proof (tag_is msg_data FullDoc Htag) as H.
  split; [|split]; [| |intros earlier];
    rewrite (onMessage_FullDoc msg_data _ H), Hload; reflexivity.
Qed.

(** C5. A frame with tag 1 whose decoded author is another actor: the
    handler calls [applyChanges] on the held document with the payload as
    the only change and stores the result with [setDoc].  It returns; the
    only other cell of the state, the websocket reference, is unchanged
    (the hook keeps no sync-state variable); [onInitialSyncComplete] is
    not called. *)
Theorem remote_change_applied
        (msg_data : bytes) (st : State Doc) (c : DecodedChange) (newDoc : Doc) :
  index0 msg_data = Some 1%N ->
  decodeChange (slice1 msg_data) = Some c ->
  actor c <> getActorId (doc st) ->
  applyChanges (doc st) [slice1 msg_data] = Some newDoc ->
  onMessage notifies msg_data st =
    returned {| doc := newDoc; wsRef_current := wsRef_current st |}
             (setDoc_trace notifies newDoc (wsRef_current st)) /\
  sync_complete_calls (effects (onMessage notifies msg_data st)) = 0.
Proof.
  intros Htag Hdec Hother Happly.
  assert (Hrun : onMessage notifies msg_data st =
                 returned {| doc := newDoc; wsRef_current := wsRef_current st |}
                          (setDoc_trace notifies newDoc (wsRef_current st))).
  { rewrite (onMessage_Change msg_data st (tag_is msg_data Change Htag)), Hdec.
    apply String.eqb_neq in Hother. rewrite Hother, Happly.
    apply setDoc_run. }
  split; [exact Hrun|].
  rewrite Hrun. apply setDoc_trace_calls_nothing.
Qed.

(** C6. A frame whose tag is none of 1, 2, 3: the handler returns with the
    state as it was and an empty trace. *)
Theorem unknown_tag_ignored (msg_data : bytes) (st : State Doc) (n : N) :
  index0 msg_data = Some n ->
  n <> 1%N -> n <> 2%N -> n <> 3%N ->
  onMessage notifies msg_data st = returned st [].
Proof.
  intros Htag H1 H2 H3.
  apply onMessage_other; eapply tag_is_not; eauto.
Qed.

(** C7. On a notification with no websocket in [wsRef], or about a
    document without a last local change, the handler returns, calls
    [send] on nothing and leaves the state as it was: nothing is kept for
    a later send. *)
Theorem no_connection_send_dropped (newDoc : Doc) (st : State Doc) :
  wsRef_current st = None \/ getLastLocalChange newDoc = None ->
  onDocChange newDoc st = returned st [].
Proof.
  intros H. rewrite onDocChange_run. unfold outbound.
  destruct H as [-> | ->]; [destruct (getLastLocalChange newDoc)|]; reflexivity.
Qed.

(** C9. The cleanup clears [wsRef] in its first statement and closes the
    websocket in its second.  Once the first statement has run ([k >= 1]
    statements done) the reference is absent, a notification sends
    nothing, and so does every later run of callbacks; the close is not
    among the effects of the first statement and is the effect of the
    whole. *)
Theorem teardown_clears_handle_first (ws : WebSocket) (st : State Doc) (k : nat) :
  1 <= k ->
  let mid := final (run_steps (firstn k (cleanup_steps ws)) st) in
  wsRef_current mid = None /\
  (forall newDoc : Doc, onDocChange newDoc mid = returned mid []) /\
  (forall inputs : list (Input Doc),
      sent (snd (run_session notifies inputs mid)) = []) /\
  effects (run_steps (firstn 1 (cleanup_steps ws)) st) = [] /\
  effects (cleanup ws st) = [WsClose ws].
Proof.
  intros Hk mid.
  assert (Hmid : wsRef_current mid = None).
  { subst mid. destruct k as [|[|k]]; [lia|reflexivity|].
    unfold cleanup_steps. cbn [firstn]. rewrite firstn_nil. reflexivity. }
  repeat split.
  - exact Hmid.
  - intros newDoc. apply onDocChange_without_handle. exact Hmid.
  - intros inputs. now apply session_without_handle.
Qed.

(** C10. A message of length zero: [msg_data[0]] is [undefined], no branch
    is taken, the handler returns with the state as it was and an empty
    trace (so without a call of [onInitialSyncComplete]). *)
Theorem empty_message_ignored (st : State Doc) :
  onMessage notifies [] st = returned st [].
Proof. reflexivity. Qed.

(** ** Further properties of the handlers *)

(** X1. When an exception leaves [onMessage] (a payload the engine
    rejects), the document and the websocket reference are as before; the
    only effect is the line "Received new document", which a frame with
    tag 3 has logged before [load] threw. *)
Theorem onMessage_throw_keeps_state (msg_data : bytes) (st : State Doc) :
  outcome (onMessage notifies msg_data st) = None ->
  final (onMessage notifies msg_data st) = st /\
  effects (onMessage notifies msg_data st) =
    if strict_eq (index0 msg_data) FullDoc
    then [ConsoleLog "Received new document"] else [].
Proof.
  split_on_tag msg_data st; cbn; intros H; try discriminate H;
    try rewrite (strict_eq_excl _ _ FullDoc Hchange) by discriminate;
    split; reflexivity.
Qed.


(** X3. A frame with tag 2 is handled without looking at its payload and
    without calling the engine: the handler logs "All changes synced",
    then calls [onInitialSyncComplete], and returns with the document and
    the websocket reference as they were. *)
Theorem backlog_complete_ignores_payload (msg_data : bytes) (st : State Doc) :
  index0 msg_data = Some 2%N ->
  onMessage notifies msg_data st =
  returned st [ConsoleLog "All changes synced"; InitialSyncComplete].
Proof.
  intros Htag. apply onMessage_ChangeBacklogComplete.
  now apply (tag_is msg_data ChangeBacklogComplete).
Qed.

(** X4. [onMessage] itself never calls [send].  While a frame is handled
    the only [send] there can be is the one of [editor.onDocChange], run
    by a notifying [setDoc]: then it is one call, on the websocket in
    [wsRef], with the last local change of the document just stored. *)
Theorem frame_sends_only_via_notification (msg_data : bytes) (st : State Doc) :
  sent (effects (onMessage notifies msg_data st)) = [] \/
  (notifies = true /\
   exists (ws : WebSocket) (c : bytes),
     wsRef_current st = Some ws /\
     getLastLocalChange (doc (final (onMessage notifies msg_data st))) = Some c /\
     sent (effects (onMessage notifies msg_data st)) = [WsSend ws c]).
Proof.
  assert (Hset : forall d : Doc,
    sent (setDoc_trace notifies d (wsRef_current st)) = [] \/
    (notifies = true /\
     exists (ws : WebSocket) (c : bytes),
       wsRef_current st = Some ws /\ getLastLocalChange d = Some c /\
       sent (setDoc_trace notifies d (wsRef_current st)) = [WsSend ws c])).
  { intros d. unfold setDoc_trace, outbound.
    destruct notifies; [|now left].
    destruct (getLastLocalChange d) as [c|]; [|now left].
    destruct (wsRef_current st) as [ws|]; [|now left].
    right. split; [reflexivity|]. exists ws, c. auto. }
  split_on_tag msg_data st; cbn; try (now left); apply Hset.
Qed.

(** *** Traces of whole sessions *)

Lemma send_targets_app (tr1 tr2 : list (Event Doc)) :
  send_targets (tr1 ++ tr2) = send_targets tr1 ++ send_targets tr2.
Proof. apply flat_map_app. Qed.

Lemma closed_sockets_app (tr1 tr2 : list (Event Doc)) :
  closed_sockets (tr1 ++ tr2) = closed_sockets tr1 ++ closed_sockets tr2.
Proof. apply flat_map_app. Qed.

Lemma setDoc_trace_targets (d : Doc) (current : option WebSocket) :
  Forall (fun w => current = Some w) (send_targets (setDoc_trace notifies d current)).
Proof.
  unfold setDoc_trace, outbound. destruct notifies; [|constructor].
  destruct (getLastLocalChange d), current; cbn; auto.
Qed.

Lemma setDoc_trace_closes_nothing (d : Doc) (current : option WebSocket) :
  closed_sockets (setDoc_trace notifies d current) = [].
Proof.
  unfold setDoc_trace, outbound. destruct notifies; [|reflexivity].
  destruct (getLastLocalChange d), current; reflexivity.
Qed.

Lemma handle_handle_cases (i : Input Doc) (st : State Doc) :
  wsRef_current (final (handle notifies i st)) = wsRef_current st \/
  wsRef_current (final (handle notifies i st)) = None.
Proof.
  destruct i as [msg_data|newDoc|ws]; unfold handle.
  - left. apply onMessage_keeps_handle.
  - left. rewrite local_edit_run. reflexivity.
  - right. reflexivity.
Qed.

Lemma handle_targets (i : Input Doc) (st : State Doc) :
  Forall (fun w => wsRef_current st = Some w)
         (send_targets (effects (handle notifies i st))).
Proof.
  destruct i as [msg_data|newDoc|ws]; unfold handle.
  - split_on_tag msg_data st; cbn; try constructor;
      apply setDoc_trace_targets.
  - rewrite local_edit_run. cbn. unfold outbound.
    destruct (getLastLocalChange newDoc), (wsRef_current st); cbn; auto.
  - cbn. constructor.
Qed.

Lemma handle_closes (i : Input Doc) (st : State Doc) :
  closed_sockets (effects (handle notifies i st)) =
  match i with Teardown ws => [ws] | _ => [] end.
Proof.
  destruct i as [msg_data|newDoc|ws]; unfold handle.
  - split_on_tag msg_data st; cbn; try reflexivity;
      apply setDoc_trace_closes_nothing.
  - rewrite local_edit_run. cbn. unfold outbound.
    destruct (getLastLocalChange newDoc), (wsRef_current st); reflexivity.
  - reflexivity.
Qed.

Lemma sent_nil_targets (tr : list (Event Doc)) :
  sent tr = [] -> send_targets tr = [].
Proof.
  unfold sent, send_targets. induction tr as [|e tr IH]; [reflexivity|].
  cbn. destruct e; cbn; try exact IH. discriminate.
Qed.

(** X5. Every [send] of a session goes to the websocket that [wsRef] held
    when the session started: no callback ever stores another websocket,
    and once a cleanup has cleared the reference nothing is sent. *)
Theorem session_sends_to_own_socket
        (inputs : list (Input Doc)) (st : State Doc) (ws : WebSocket) :
  wsRef_current st = Some ws ->
  Forall (fun w => w = ws) (send_targets (snd (run_session notifies inputs st))).
Proof.
  revert st. induction inputs as [|i rest IH]; intros st Hws; [constructor|].
  cbn [run_session].
  pose proof (handle_targets i st) as Hi.
  pose proof (handle_handle_cases i st) as Hnext.
  pose proof (session_without_handle rest (final (handle notifies i st)))
    as Hnone.
  specialize (IH (final (handle notifies i st))).
  destruct (run_session notifies rest (final (handle notifies i st))) as [st' tr].
  cbn [snd] in *. rewrite send_targets_app. apply Forall_app. split.
  - eapply Forall_impl; [|exact Hi]. cbn. intros w Hw. congruence.
  - destruct Hnext as [Hkeep|Hgone].
    + apply IH. congruence.
    + rewrite (sent_nil_targets tr (Hnone Hgone)). constructor.
Qed.

(** X6. [close] is called by the cleanup and by nothing else: the
    websockets closed in a session are those of its cleanups, in order;
    no frame and no local edit closes one. *)
Theorem only_cleanup_closes (inputs : list (Input Doc)) (st : State Doc) :
  closed_sockets (snd (run_session notifies inputs st)) = teardowns inputs.
Proof.
  revert st. induction inputs as [|i rest IH]; intros st; [reflexivity|].
  cbn [run_session]. specialize (IH (final (handle notifies i st))).
  destruct (run_session notifies rest (final (handle notifies i st))) as [st' tr].
  cbn [snd] in *. rewrite closed_sockets_app, handle_closes, IH.
  destruct i; reflexivity.
Qed.

(** X7. The echo test follows the document the editor holds.  After a
    frame with tag 3 has stored the snapshot [d], a change authored by the
    actor of [d] is dropped, whatever the actor of the earlier document
    was. *)
Theorem snapshot_resets_echo_identity
        (snapshot change : bytes) (st : State Doc) (d : Doc) (c : DecodedChange) :
  index0 snapshot = Some 3%N ->
  load (slice1 snapshot) = Some d ->
  index0 change = Some 1%N ->
  decodeChange (slice1 change) = Some c ->
  actor c = getActorId d ->
  let st1 := final (onMessage notifies snapshot st) in
  doc st1 = d /\ onMessage notifies change st1 = returned st1 [].
Proof.
  intros Hs Hload Hc Hdec Hactor st1.
  assert (Hd : doc st1 = d).
  { subst st1.
    rewrite (onMessage_FullDoc snapshot st (tag_is snapshot FullDoc Hs)).
    rewrite Hload. reflexivity. }
  split; [exact Hd|].
  rewrite (onMessage_Change change st1 (tag_is change Change Hc)), Hdec, Hd.
  rewrite Hactor, String.eqb_refl. reflexivity.
Qed.

(** X8. [decode] loses nothing: two messages with the same tag and the
    same payload are the same message (an empty message has no tag). *)
Theorem decode_injective (m1 m2 : bytes) :
  decode m1 = decode m2 -> m1 = m2.
Proof.
  unfold decode. intros H. injection H as Htag Hpayload.
  destruct m1 as [|b1 r1], m2 as [|b2 r2]; try discriminate; [reflexivity|].
  cbn in Htag, Hpayload. injection Htag as Htag.
  assert (Hb : Some b1 = Some b2).
  { rewrite <- (Byte.of_to_N b1), <- (Byte.of_to_N b2). now rewrite Htag. }
  injection Hb as ->. now subst.
Qed.

(** X9. With a websocket in [wsRef], a run of local edits sends the last
    local change of each edited document, one [send] per edit and in the
    order of the edits (an edit whose document has no local change sends
    nothing); nothing is batched, reordered or held back. *)
Theorem local_edits_sent_in_order
        (docs : list Doc) (st : State Doc) (ws : WebSocket) :
  wsRef_current st = Some ws ->
  sent (snd (run_session notifies (map (@LocalEdit Doc) docs) st)) =
  flat_map (fun d => outbound d (Some ws)) docs.
Proof.
  revert st. induction docs as [|d rest IH]; intros st Hws; [reflexivity|].
  cbn [map run_session flat_map handle]. rewrite local_edit_run.
  cbn [final effects returned].
  specialize (IH {| doc := d; wsRef_current := wsRef_current st |} Hws).
  destruct (run_session notifies (map (@LocalEdit Doc) rest)
              {| doc := d; wsRef_current := wsRef_current st |}) as [st' tr].
  cbn [snd] in *. unfold sent in *. rewrite filter_app, IH, Hws.
  f_equal. cbn. unfold outbound.
  destruct (getLastLocalChange d); reflexivity.
Qed.

(** X10. A local edit followed by its echo.  If the edited document's last
    local change [c] is authored by the document's own actor, the edit
    sends [c] once, and the frame [01 c] that comes back is dropped: the
    document is the edited one and nothing more was done. *)
Theorem edit_then_echo
        (d : Doc) (c : bytes) (h : DecodedChange) (st : State Doc) (ws : WebSocket) :
  wsRef_current st = Some ws ->
  getLastLocalChange d = Some c ->
  decodeChange c = Some h ->
  actor h = getActorId d ->
  run_session notifies [LocalEdit d; Frame (x01 :: c)] st =
  ({| doc := d; wsRef_current := Some ws |},
   [DocChangeNotified d; WsSend ws c]).
Proof.
  intros Hws Hc Hdec Hown. cbn [run_session handle].
  rewrite local_edit_run. cbn [final effects returned].
  rewrite (echo_drop_run (x01 :: c) _ h); try assumption; try reflexivity.
  cbn. unfold outbound. now rewrite Hc, Hws.
Qed.

Lemma inert_frame_run (i : Input Doc) (st : State Doc) :
  is_inert i = true ->
  final (handle notifies i st) = st /\ sent (effects (handle notifies i st)) = [].
Proof.
  destruct i as [msg_data|newDoc|ws]; cbn [is_inert handle]; try discriminate.
  intros H. apply andb_prop in H. destruct H as [H1 H3].
  apply negb_true_iff in H1, H3.
  destruct (strict_eq (index0 msg_data) ChangeBacklogComplete) eqn:H2.
  - rewrite (onMessage_ChangeBacklogComplete msg_data st H2). auto.
  - rewrite (onMessage_other msg_data st H1 H2 H3). auto.
Qed.

(** X11. Frames that are neither a [Change] nor a [FullDoc] (tag 2, an
    unknown tag, an empty message) have no part in the document and in
    what is sent: leaving them out of a session gives the same final
    state and the same calls of [send]. *)
Theorem inert_frames_removable (inputs : list (Input Doc)) (st : State Doc) :
  let kept := filter (fun i => negb (is_inert i)) inputs in
  fst (run_session notifies kept st) = fst (run_session notifies inputs st) /\
  sent (snd (run_session notifies kept st)) =
  sent (snd (run_session notifies inputs st)).
Proof.
  cbv zeta. revert st.
  induction inputs as [|i rest IH]; intros st; [split; reflexivity|].
  cbn [filter]. destruct (is_inert i) eqn:Hi; cbn [negb].
  - destruct (inert_frame_run i st Hi) as [Hst Hsent].
    cbn [run_session]. rewrite Hst.
    destruct (IH st) as [IH1 IH2].
    destruct (run_session notifies rest st) as [st' tr].
    cbn [fst snd] in *. split; [exact IH1|].
    unfold sent in *. rewrite filter_app, Hsent. exact IH2.
  - cbn [run_session].
    destruct (IH (final (handle notifies i st))) as [IH1 IH2].
    destruct (run_session notifies rest (final (handle notifies i st))) as [st1 tr1].
    destruct (run_session notifies
                (filter (fun i0 => negb (is_inert i0)) rest)
                (final (handle notifies i st))) as [st2 tr2].
    cbn [fst snd] in *. split; [exact IH1|].
    unfold sent in *. rewrite !filter_app. now rewrite IH2.
Qed.

Lemma onMessage_doc_from_doc (msg_data : bytes) (st : State Doc) (r : option WebSocket) :
  doc (final (onMessage notifies msg_data st)) =
  doc (final (onMessage notifies msg_data {| doc := doc st; wsRef_current := r |})).
Proof.
  destruct (strict_eq (index0 msg_data) Change) eqn:H1.
  - rewrite !onMessage_Change by exact H1. cbn [doc].
    destruct (decodeChange (slice1 msg_data)) as [c|]; [|reflexivity].
    destruct (String.eqb (actor c) (getActorId (doc st))); [reflexivity|].
    destruct (applyChanges (doc st) [slice1 msg_data]) as [d|]; [|reflexivity].
    rewrite !setDoc_run. reflexivity.
  - destruct (strict_eq (index0 msg_data) ChangeBacklogComplete) eqn:H2.
    + rewrite !onMessage_ChangeBacklogComplete by exact H2. reflexivity.
    + destruct (strict_eq (index0 msg_data) FullDoc) eqn:H3.
      * rewrite !onMessage_FullDoc by exact H3.
        destruct (load (slice1 msg_data)); reflexivity.
      * rewrite !onMessage_other by assumption. reflexivity.
Qed.

Lemma handle_doc_from_doc (i : Input Doc) (st1 st2 : State Doc) :
  doc st1 = doc st2 ->
  doc (final (handle notifies i st1)) = doc (final (handle notifies i st2)).
Proof.
  intros H. destruct i as [msg_data|newDoc|ws]; unfold handle.
  - rewrite (onMessage_doc_from_doc msg_data st1 None).
    rewrite (onMessage_doc_from_doc msg_data st2 None). now rewrite H.
  - rewrite !local_edit_run. reflexivity.
  - exact H.
Qed.

(** X12. The document does not depend on the connection.  Two sessions
    that start with the same document and run the same callbacks end with
    the same document, whether or not a websocket was in [wsRef] (so also
    when the cleanup ran at different moments). *)
Theorem document_independent_of_connection
        (inputs : list (Input Doc)) (st1 st2 : State Doc) :
  doc st1 = doc st2 ->
  doc (fst (run_session notifies inputs st1)) =
  doc (fst (run_session notifies inputs st2)).
Proof.
  revert st1 st2. induction inputs as [|i rest IH]; intros st1 st2 H; [exact H|].
  cbn [run_session].
  specialize (IH _ _ (handle_doc_from_doc i st1 st2 H)).
  destruct (run_session notifies rest (final (handle notifies i st1))).
  destruct (run_session notifies rest (final (handle notifies i st2))).
  exact IH.
Qed.

(** X13. Remote changes are applied one at a time and in arrival order.
    For an engine whose [applyChanges] keeps the document's actor, a run
    of frames [01 m] whose changes are all by other actors leaves the
    document that applying the payloads one after the other gives; the
    websocket reference is untouched. *)
Theorem remote_changes_applied_in_order
        (payloads : list bytes) (st : State Doc) (d' : Doc) :
  (forall (d : Doc) (cs : list bytes) (d1 : Doc),
      applyChanges d cs = Some d1 -> getActorId d1 = getActorId d) ->
  Forall (fun m => exists c : DecodedChange,
                     decodeChange m = Some c /\
                     String.eqb (actor c) (getActorId (doc st)) = false)
         payloads ->
  apply_in_order (doc st) payloads = Some d' ->
  fst (run_session notifies (map (fun m => Frame (x01 :: m)) payloads) st) =
  {| doc := d'; wsRef_current := wsRef_current st |}.
Proof.
  intros Hkeep. revert st.
  induction payloads as [|m rest IH]; intros st Hall Happly.
  - cbn in *. injection Happly as <-. destruct st; reflexivity.
  - inversion Hall as [|m' rest' [c [Hdec Hother]] Hrest]; subst.
    cbn [apply_in_order] in Happly.
    destruct (applyChanges (doc st) [m]) as [d1|] eqn:H1; [|discriminate].
    cbn [map run_session handle].
    assert (Hrun : onMessage notifies (x01 :: m) st =
                   returned {| doc := d1; wsRef_current := wsRef_current st |}
                            (setDoc_trace notifies d1 (wsRef_current st))).
    { rewrite (onMessage_Change (x01 :: m) st eq_refl).
      cbn [slice1 skipn]. rewrite Hdec, Hother, H1. apply setDoc_run. }
    rewrite Hrun. cbn [final returned].
    specialize (IH {| doc := d1; wsRef_current := wsRef_current st |}).
    cbn [doc wsRef_current] in IH.
    rewrite (Hkeep _ _ _ H1) in IH. specialize (IH Hrest Happly).
    destruct (run_session notifies (map (fun m0 => Frame (x01 :: m0)) rest)
                {| doc := d1; wsRef_current := wsRef_current st |}).
    exact IH.
Qed.

End HookProperties.

(** C8. [decode] takes byte 0 as the tag and the rest as the payload, so a
    frame built by [encode] decodes to the tag's number and the same
    payload, and the handler's test for that tag succeeds. *)
Theorem decode_encode_roundtrip :
  (forall (b : byte) (rest : bytes),
      decode (b :: rest) = (Some (Byte.to_N b), rest)) /\
  (forall (t : MessageSyncType) (payload : bytes),
      decode (encode t payload) = (Some (MessageSyncType_value t), payload)) /\
  (forall (t : MessageSyncType) (payload : bytes),
      strict_eq (fst (decode (encode t payload))) t = true).
Proof.
  repeat split; intros t payload; destruct t; reflexivity.
Qed.

(** ** The claims on concrete runs *)

Section Runs.

Import Toy.
Local Open Scope string_scope.

(** C1 at a run: replica "A" gets its own change [41 07] back. *)
Lemma echo_change_dropped_witness :
  onMessage true [x01; x41; x07] live = returned live [].
Proof.
  apply (echo_change_dropped true [x01; x41; x07] live {| actor := "A" |});
    reflexivity.
Defined.

(** C2 as stated fails: a session that receives two frames with tag 2
    calls [onInitialSyncComplete] twice, and a session that receives none
    never calls it. *)
Lemma initial_sync_not_exactly_once :
  sync_complete_calls
    (snd (run_session true [Frame [x02]; Frame [x02]] (started 0))) = 2 /\
  sync_complete_calls
    (snd (run_session true [Frame [x02]; Frame [x02]] (started 0))) <> 1 /\
  sync_complete_calls
    (snd (run_session true [Frame [x01; x42; x09]; LocalEdit edited]
            (started 0))) <> 1.
Proof. repeat split; discriminate. Qed.

(** C3 as stated fails: with last local change [41 07] the bytes handed
    to [send] are [41 07], not the frame [01 41 07]. *)
Lemma outbound_change_not_framed :
  getLastLocalChange edited = Some [x41; x07] /\
  effects (onDocChange edited live) = [WsSend 0 [x41; x07]] /\
  effects (onDocChange edited live) <> [WsSend 0 (encode Change [x41; x07])].
Proof. repeat split. discriminate. Qed.

(** C3 as amended, at that run. *)
Lemma local_change_sent_unframed_witness :
  onDocChange edited live = returned live [WsSend 0 [x41; x07]].
Proof.
  apply (local_change_sent_unframed edited live [x41; x07] 0); reflexivity.
Defined.

(** C4 at a run: a snapshot of replica "B" arrives while "A" holds an
    unsent local change. *)
Lemma full_doc_replaces_document_witness :
  toy_local (doc live) = Some [x41; x07] /\
  doc (final (onMessage true [x03; x42; x09] live)) =
    {| toy_actor := "B"; toy_applied := [[x09]]; toy_local := None |}.
Proof.
  split; [reflexivity|].
  destruct (full_doc_replaces_document true [x03; x42; x09] live
              {| toy_actor := "B"; toy_applied := [[x09]]; toy_local := None |})
    as [_ [H _]]; [reflexivity | reflexivity | ].
  rewrite H. reflexivity.
Defined.

(** C5 at a run: a change authored by "B" reaches replica "A". *)
Lemma remote_change_applied_witness :
  doc (final (onMessage true [x01; x42; x09] live)) =
    {| toy_actor := "A"; toy_applied := [[x42; x09]];
       toy_local := Some [x41; x07] |} /\
  sync_complete_calls (effects (onMessage true [x01; x42; x09] live)) = 0.
Proof.
  destruct (remote_change_applied true [x01; x42; x09] live {| actor := "B" |}
              {| toy_actor := "A"; toy_applied := [[x42; x09]];
                 toy_local := Some [x41; x07] |}) as [H H0];
    try reflexivity.
  - cbn. discriminate.
  - rewrite H. split; reflexivity.
Defined.

(** C6 at a run: tag 99. *)
Lemma unknown_tag_ignored_witness :
  onMessage true [x63; x41; x07] live = returned live [].
Proof.
  apply (unknown_tag_ignored true [x63; x41; x07] live 99%N);
    [reflexivity | discriminate | discriminate | discriminate].
Defined.

(** C7 at a run: a local change with the websocket reference cleared. *)
Lemma no_connection_send_dropped_witness :
  onDocChange edited detached = returned detached [].
Proof.
  apply (no_connection_send_dropped edited detached). left. reflexivity.
Defined.

(** C9 at a run: after the first statement of the cleanup. *)
Lemma teardown_clears_handle_first_witness :
  wsRef_current (final (run_steps (firstn 1 (cleanup_steps 0)) live)) = None /\
  effects (cleanup 0 live) = [WsClose 0].
Proof.
  destruct (teardown_clears_handle_first true 0 live 1 (le_n 1))
    as [H [_ [_ [_ H']]]].
  split; [exact H | exact H'].
Defined.

End Runs.

(** ** The further properties on concrete runs *)

Section MoreRuns.

Import Toy.
Local Open Scope string_scope.

(** X1 at a run: a snapshot frame with an empty payload, which [load]
    rejects. *)
Lemma onMessage_throw_keeps_state_witness :
  final (onMessage true [x03] live) = live /\
  effects (onMessage true [x03] live) = [ConsoleLog "Received new document"].
Proof.
  apply (onMessage_throw_keeps_state true [x03] live). reflexivity.
Defined.

(** X3 at a run: tag 2 with a payload nobody reads. *)
Lemma backlog_complete_ignores_payload_witness :
  onMessage true [x02; xff; x00] live =
  returned live [ConsoleLog "All changes synced"; InitialSyncComplete].
Proof.
  apply (backlog_complete_ignores_payload true [x02; xff; x00] live).
  reflexivity.
Defined.

(** X5 at a run: an edit, the cleanup, another edit. *)
Lemma session_sends_to_own_socket_witness :
  Forall (fun w => w = 0)
    (send_targets
       (snd (run_session true
               [LocalEdit edited; Teardown 0; LocalEdit edited] live))).
Proof.
  apply (session_sends_to_own_socket true
           [LocalEdit edited; Teardown 0; LocalEdit edited] live 0).
  reflexivity.
Defined.

(** X7 at a run: replica "A" receives a snapshot of "B"; a change by "B"
    is then dropped. *)
Lemma snapshot_resets_echo_identity_witness :
  onMessage true [x01; x42; x05] (final (onMessage true [x03; x42; x09] live)) =
  returned (final (onMessage true [x03; x42; x09] live)) [].
Proof.
  destruct (snapshot_resets_echo_identity true
              [x03; x42; x09] [x01; x42; x05] live
              {| toy_actor := "B"; toy_applied := [[x09]]; toy_local := None |}
              {| actor := "B" |}) as [_ H];
    [reflexivity | reflexivity | reflexivity | reflexivity | reflexivity | ].
  exact H.
Defined.

(** X8 at a run. *)
Lemma decode_injective_witness :
  [x01; x41; x07] = encode Change [x41; x07].
Proof.
  apply (decode_injective [x01; x41; x07] (encode Change [x41; x07])).
  reflexivity.
Defined.

(** X9 at a run: the middle edit has no local change. *)
Lemma local_edits_sent_in_order_witness :
  sent (snd (run_session true
               [LocalEdit edited; LocalEdit init; LocalEdit edited] live)) =
  [WsSend 0 [x41; x07]; WsSend 0 [x41; x07]].
Proof.
  exact (local_edits_sent_in_order true [edited; init; edited] live 0 eq_refl).
Defined.

(** X10 at a run: replica "A" types [41 07] and gets it back. *)
Lemma edit_then_echo_witness :
  run_session true [LocalEdit edited; Frame [x01; x41; x07]] (started 0) =
  ({| doc := edited; wsRef_current := Some 0 |},
   [DocChangeNotified edited; WsSend 0 [x41; x07]]).
Proof.
  apply (edit_then_echo true edited [x41; x07] {| actor := "A" |} (started 0) 0);
    reflexivity.
Defined.

(** X12 at a run: the same callbacks with and without a websocket. *)
Lemma document_independent_of_connection_witness :
  doc (fst (run_session true
              [Frame [x01; x42; x09]; LocalEdit edited] live)) =
  doc (fst (run_session true
              [Frame [x01; x42; x09]; LocalEdit edited] detached)).
Proof.
  apply (document_independent_of_connection true
           [Frame [x01; x42; x09]; LocalEdit edited] live detached).
  reflexivity.
Defined.

(** X13 at a run: two changes, by "B" and by "C", reach replica "A". *)
Lemma remote_changes_applied_in_order_witness :
  fst (run_session true
         [Frame [x01; x42; x09]; Frame [x01; x43; x01]] live) =
  {| doc := {| toy_actor := "A";
               toy_applied := [[x42; x09]; [x43; x01]];
               toy_local := Some [x41; x07] |};
     wsRef_current := Some 0 |}.
Proof.
  apply (remote_changes_applied_in_order true
           [[x42; x09]; [x43; x01]] live).
  - intros d cs d1. cbn. unfold toy_applyChanges.
    match goal with |- context [existsb ?f cs] => destruct (existsb f cs) end;
      [discriminate|].
    intros H. injection H as <-. reflexivity.
  - repeat constructor.
    + exists {| actor := "B" |}. split; reflexivity.
    + exists {| actor := "C" |}. split; reflexivity.
  - reflexivity.
Defined.

End MoreRuns.
